(** * sde_hdmi.h: the SDE HDMI display interface

    A model of [drivers/gpu/drm/msm/hdmi-staging/sde_hdmi.h].  The header
    declares three structures and twelve entry points.  With
    [CONFIG_DRM_SDE_HDMI] set the entry points are prototypes only; with
    the flag unset each of them is a [static inline] function whose body
    is a single [return] of a constant.

    The development has two layers.
    - The declaration surface (structure fields, prototypes) is kept as
      data, in the order of the header, so that statements about names
      and types can be decided.
    - The inline functions of the [#else] branch are embedded as
      functions in a state monad over a typed heap, so that statements
      about results and about memory can be proved. *)

From Stdlib Require Import ZArith List String Bool Lia.
From stdpp Require Import base gmap strings.

Import ListNotations.
Local Open Scope Z_scope.
Local Open Scope string_scope.

(** ** Syntax of the declarations *)

Module CDecl.

(** Structure tags that occur in the header.  The first three are
    declared by the header itself, the others by headers it includes. *)
Inductive struct_tag : Set :=
| S_sde_hdmi_info
| S_sde_hdmi_ctrl
| S_sde_hdmi
| S_hdmi
| S_device_node
| S_platform_device
| S_drm_device
| S_list_head
| S_mutex
| S_work_struct
| S_dentry
| S_drm_connector
| S_drm_display_mode
| S_drm_encoder
| S_msm_display_info.

(** Enumeration tags that occur in the header. *)
Inductive enum_tag : Set :=
| E_drm_connector_status
| E_drm_mode_status.

(** The C types the header writes. *)
Inductive ctype : Set :=
| Tvoid
| Tbool
| Tchar
| Tint
| Tu32
| Tconst (t : ctype)
| Tptr (t : ctype)
| Tstruct (s : struct_tag)
| Tenum (e : enum_tag).

Scheme Equality for struct_tag.
Scheme Equality for enum_tag.
Scheme Equality for ctype.

(** A named, typed slot: a structure member or a function parameter. *)
Record field : Set := Field { f_type : ctype; f_name : string }.

Record struct_decl : Set := Struct { s_tag : struct_tag; s_fields : list field }.

(** How an entry point is declared: a bare prototype (the definition
    lives in another translation unit) or [static inline] with a body. *)
Inductive linkage : Set := Prototype | StaticInline.

Record fun_decl : Set := Fun {
  d_linkage : linkage;
  d_ret : ctype;
  d_name : string;
  d_params : list field
}.

Definition param_types (d : fun_decl) : list ctype := map f_type (d_params d).

Definition field_names (s : struct_decl) : list string := map f_name (s_fields s).

(** The type of the member called [n], if the structure has one. *)
Definition field_type (s : struct_decl) (n : string) : option ctype :=
  option_map f_type (find (fun f => String.eqb (f_name f) n) (s_fields s)).

(** The members of [s] whose type is [t]. *)
Definition fields_of_type (s : struct_decl) (t : ctype) : list string :=
  map f_name (filter (fun f => ctype_beq (f_type f) t) (s_fields s)).

(** [const char *]: the C spelling of a string. *)
Definition Tstring : ctype := Tptr (Tconst Tchar).

End CDecl.
Import CDecl.

(** ** The declarations of the header, in its order *)

(** [struct sde_hdmi_info] (lines 36-47). *)
Definition sde_hdmi_info_decl : struct_decl :=
  Struct S_sde_hdmi_info
    [ Field (Tptr (Tconst Tchar)) "display_type";
      Field Tbool "is_hot_pluggable";
      Field Tbool "is_connected";
      Field Tbool "is_edid_supported";
      Field Tu32 "width_mm";
      Field Tu32 "height_mm" ].

(** [struct sde_hdmi_ctrl] (lines 55-60). *)
Definition sde_hdmi_ctrl_decl : struct_decl :=
  Struct S_sde_hdmi_ctrl
    [ Field (Tptr (Tstruct S_hdmi)) "ctrl";
      Field (Tptr (Tstruct S_device_node)) "ctrl_of_node";
      Field Tu32 "hdmi_ctrl_idx" ].

(** [struct sde_hdmi] (lines 79-100). *)
Definition sde_hdmi_decl : struct_decl :=
  Struct S_sde_hdmi
    [ Field (Tptr (Tstruct S_platform_device)) "pdev";
      Field (Tptr (Tstruct S_drm_device)) "drm_dev";
      Field (Tptr (Tconst Tchar)) "name";
      Field (Tptr (Tconst Tchar)) "display_type";
      Field (Tstruct S_list_head) "list";
      Field (Tstruct S_mutex) "display_lock";
      Field (Tstruct S_sde_hdmi_ctrl) "ctrl";
      Field Tbool "non_pluggable";
      Field Tu32 "num_of_modes";
      Field (Tstruct S_list_head) "mode_list";
      Field Tbool "connected";
      Field Tbool "is_tpg_enabled";
      Field (Tstruct S_work_struct) "hpd_work";
      Field (Tptr (Tstruct S_dentry)) "root" ].

(** The prototypes under [#ifdef CONFIG_DRM_SDE_HDMI] (lines 102-225). *)
Definition enabled_decls : list fun_decl :=
  [ Fun Prototype Tu32 "sde_hdmi_get_num_of_displays" [];
    Fun Prototype Tint "sde_hdmi_get_displays"
      [ Field (Tptr (Tptr Tvoid)) "display_array";
        Field Tu32 "max_display_count" ];
    Fun Prototype Tint "sde_hdmi_connector_pre_deinit"
      [ Field (Tptr (Tstruct S_drm_connector)) "connector";
        Field (Tptr Tvoid) "display" ];
    Fun Prototype Tint "sde_hdmi_connector_post_init"
      [ Field (Tptr (Tstruct S_drm_connector)) "connector";
        Field (Tptr Tvoid) "info";
        Field (Tptr Tvoid) "display" ];
    Fun Prototype (Tenum E_drm_connector_status) "sde_hdmi_connector_detect"
      [ Field (Tptr (Tstruct S_drm_connector)) "connector";
        Field Tbool "force";
        Field (Tptr Tvoid) "display" ];
    Fun Prototype Tint "sde_hdmi_connector_get_modes"
      [ Field (Tptr (Tstruct S_drm_connector)) "connector";
        Field (Tptr Tvoid) "display" ];
    Fun Prototype (Tenum E_drm_mode_status) "sde_hdmi_mode_valid"
      [ Field (Tptr (Tstruct S_drm_connector)) "connector";
        Field (Tptr (Tstruct S_drm_display_mode)) "mode";
        Field (Tptr Tvoid) "display" ];
    Fun Prototype Tint "sde_hdmi_dev_init"
      [ Field (Tptr (Tstruct S_sde_hdmi)) "display" ];
    Fun Prototype Tint "sde_hdmi_dev_deinit"
      [ Field (Tptr (Tstruct S_sde_hdmi)) "display" ];
    Fun Prototype Tint "sde_hdmi_drm_init"
      [ Field (Tptr (Tstruct S_sde_hdmi)) "display";
        Field (Tptr (Tstruct S_drm_encoder)) "enc" ];
    Fun Prototype Tint "sde_hdmi_drm_deinit"
      [ Field (Tptr (Tstruct S_sde_hdmi)) "display" ];
    Fun Prototype Tint "sde_hdmi_get_info"
      [ Field (Tptr (Tstruct S_msm_display_info)) "info";
        Field (Tptr Tvoid) "display" ] ].

(** ** Values *)

(** An address; [0] is [NULL]. *)
Definition ptr : Set := Z.
(** [u32] and [int] hold integers; the inline functions only ever
    produce the literal [0], so no arithmetic (and no wrap-around) is
    involved. *)
Definition u32 : Set := Z.
Definition int : Set := Z.

Definition u32_range (z : u32) : Prop := 0 <= z < 2 ^ 32.

(** What the header takes from the headers it includes ([drm/drm_crtc.h],
    [drm/drmP.h], [linux/types.h], [hdmi.h], ...), none of which is part
    of the sources at hand: the structure types it only names, the two
    enumerations, and the one enumerator of each that an inline function
    returns.  Everything below is parametric in them. *)
Class KernelDecls : Type := {
  extern_struct : struct_tag -> Type;
  drm_connector_status : Type;
  connector_status_disconnected : drm_connector_status;
  drm_mode_status : Type;
  MODE_OK : drm_mode_status
}.

(** [struct sde_hdmi_info] (lines 36-47). *)
Module SdeHdmiInfo.
Record sde_hdmi_info : Set := {
  display_type : ptr;
  is_hot_pluggable : bool;
  is_connected : bool;
  is_edid_supported : bool;
  width_mm : u32;
  height_mm : u32
}.
End SdeHdmiInfo.
Abbreviation sde_hdmi_info := SdeHdmiInfo.sde_hdmi_info.

(** [struct sde_hdmi_ctrl] (lines 55-60). *)
Module SdeHdmiCtrl.
Record sde_hdmi_ctrl : Set := {
  ctrl : ptr;
  ctrl_of_node : ptr;
  hdmi_ctrl_idx : u32
}.
End SdeHdmiCtrl.
Abbreviation sde_hdmi_ctrl := SdeHdmiCtrl.sde_hdmi_ctrl.

(** [struct sde_hdmi] (lines 79-100).  The list heads, the mutex and the
    work item are embedded by value; their types come from the kernel. *)
Module SdeHdmi.
Record sde_hdmi `{KernelDecls} : Type := {
  pdev : ptr;
  drm_dev : ptr;
  name : ptr;
  display_type : ptr;
  list : extern_struct S_list_head;
  display_lock : extern_struct S_mutex;
  ctrl : sde_hdmi_ctrl;
  non_pluggable : bool;
  num_of_modes : u32;
  mode_list : extern_struct S_list_head;
  connected : bool;
  is_tpg_enabled : bool;
  hpd_work : extern_struct S_work_struct;
  root : ptr
}.
End SdeHdmi.
Abbreviation sde_hdmi := SdeHdmi.sde_hdmi.

Section Header.

Context `{K : KernelDecls}.

(** The values of a structure type. *)
Definition struct_obj (s : struct_tag) : Type :=
  match s with
  | S_sde_hdmi_info => sde_hdmi_info
  | S_sde_hdmi_ctrl => sde_hdmi_ctrl
  | S_sde_hdmi => sde_hdmi
  | _ => extern_struct s
  end.

Definition enum_obj (e : enum_tag) : Type :=
  match e with
  | E_drm_connector_status => drm_connector_status
  | E_drm_mode_status => drm_mode_status
  end.

(** The values of a C type.  A pointer of any type is an address. *)
Fixpoint denote (t : ctype) : Type :=
  match t with
  | Tvoid => unit
  | Tbool => bool
  | Tchar => Z
  | Tint => int
  | Tu32 => u32
  | Tconst t => denote t
  | Tptr _ => ptr
  | Tstruct s => struct_obj s
  | Tenum e => enum_obj e
  end.

(** The values of a member list: one component per member, in order. *)
Fixpoint denote_fields (fs : list field) : Type :=
  match fs with
  | [] => unit
  | f :: fs => (denote (f_type f) * denote_fields fs)%type
  end.

(** A structure value and the tuple of its members, for each structure
    the header declares.  The definitions type-check only because the
    record types above agree, member by member, with the declarations. *)
Definition sde_hdmi_info_members (i : sde_hdmi_info)
  : denote_fields (s_fields sde_hdmi_info_decl) :=
  (SdeHdmiInfo.display_type i,
   (SdeHdmiInfo.is_hot_pluggable i,
    (SdeHdmiInfo.is_connected i,
     (SdeHdmiInfo.is_edid_supported i,
      (SdeHdmiInfo.width_mm i,
       (SdeHdmiInfo.height_mm i, tt)))))).

Definition sde_hdmi_info_of_members
  (m : denote_fields (s_fields sde_hdmi_info_decl)) : sde_hdmi_info :=
  let '(a, (b, (c, (d, (e, (f, _)))))) := m in
  SdeHdmiInfo.Build_sde_hdmi_info a b c d e f.

Definition sde_hdmi_ctrl_members (c : sde_hdmi_ctrl)
  : denote_fields (s_fields sde_hdmi_ctrl_decl) :=
  (SdeHdmiCtrl.ctrl c,
   (SdeHdmiCtrl.ctrl_of_node c,
    (SdeHdmiCtrl.hdmi_ctrl_idx c, tt))).

Definition sde_hdmi_ctrl_of_members
  (m : denote_fields (s_fields sde_hdmi_ctrl_decl)) : sde_hdmi_ctrl :=
  let '(a, (b, (c, _))) := m in
  SdeHdmiCtrl.Build_sde_hdmi_ctrl a b c.

Definition sde_hdmi_members (d : sde_hdmi)
  : denote_fields (s_fields sde_hdmi_decl) :=
  (SdeHdmi.pdev d,
   (SdeHdmi.drm_dev d,
    (SdeHdmi.name d,
     (SdeHdmi.display_type d,
      (SdeHdmi.list d,
       (SdeHdmi.display_lock d,
        (SdeHdmi.ctrl d,
         (SdeHdmi.non_pluggable d,
          (SdeHdmi.num_of_modes d,
           (SdeHdmi.mode_list d,
            (SdeHdmi.connected d,
             (SdeHdmi.is_tpg_enabled d,
              (SdeHdmi.hpd_work d,
               (SdeHdmi.root d, tt)))))))))))))).

(** ** Memory *)

(** What an address can hold: a structure, an array of pointers (the
    [display_array] of [sde_hdmi_get_displays]), or a string. *)
Inductive object : Type :=
| OStruct (s : struct_tag) (v : struct_obj s)
| OPtrArray (a : list ptr)
| OString (s : string).

Definition heap : Type := gmap Z object.

(** The display at [p], if [p] holds one. *)
Definition display_at (h : heap) (p : ptr) : option sde_hdmi :=
  match h !! p with
  | Some (OStruct s v) =>
      match s return struct_obj s -> option sde_hdmi with
      | S_sde_hdmi => fun d => Some d
      | _ => fun _ => None
      end v
  | _ => None
  end.

(** C functions as state transformers: a result and the memory after. *)
Definition M (A : Type) : Type := heap -> A * heap.

Definition ret {A : Type} (a : A) : M A := fun h => (a, h).

Definition bind {A B : Type} (m : M A) (k : A -> M B) : M B :=
  fun h => let '(a, h') := m h in k a h'.

(** [*p = o]: what a function that did write would do. *)
Definition store (p : ptr) (o : object) : M unit :=
  fun h => (tt, <[p := o]> h).

Definition result {A : Type} (m : M A) (h : heap) : A := fst (m h).
Definition final {A : Type} (m : M A) (h : heap) : heap := snd (m h).

(** ** The inline functions of the [#else] branch (lines 227-301) *)

Definition sde_hdmi_get_num_of_displays : M u32 :=
  ret 0.

Definition sde_hdmi_get_displays (display_array : ptr)
    (max_display_count : u32) : M int :=
  ret 0.

Definition sde_hdmi_connector_pre_deinit (connector : ptr)
    (display : ptr) : M int :=
  ret 0.

Definition sde_hdmi_connector_post_init (connector : ptr)
    (info : ptr)
    (display : ptr) : M int :=
  ret 0.

Definition sde_hdmi_connector_detect (connector : ptr)
    (force : bool)
    (display : ptr) : M drm_connector_status :=
  ret connector_status_disconnected.

Definition sde_hdmi_connector_get_modes (connector : ptr)
    (display : ptr) : M int :=
  ret 0.

Definition sde_hdmi_mode_valid (connector : ptr)
    (mode : ptr)
    (display : ptr) : M drm_mode_status :=
  ret MODE_OK.

Definition sde_hdmi_dev_init (display : ptr) : M int :=
  ret 0.

Definition sde_hdmi_dev_deinit (display : ptr) : M int :=
  ret 0.

Definition sde_hdmi_drm_init (display : ptr)
    (enc : ptr) : M int :=
  ret 0.

Definition sde_hdmi_drm_deinit (display : ptr) : M int :=
  ret 0.

Definition sde_hdmi_get_info (info : ptr)
    (display : ptr) : M int :=
  ret 0.

(** ** The [#else] branch as a table *)

(** The Rocq type of a function with parameters [ps] and return type [r]. *)
Fixpoint denote_fun (ps : list field) (r : ctype) : Type :=
  match ps with
  | [] => M (denote r)
  | p :: ps => denote (f_type p) -> denote_fun ps r
  end.

(** A definition of the header: its declaration and its body.  The type
    of the body is computed from the declaration, so an entry is accepted
    only when the embedded function has the declared parameters and
    return type. *)
Record inline_fun : Type := Inline {
  i_decl : fun_decl;
  i_body : denote_fun (d_params i_decl) (d_ret i_decl)
}.

Definition stubs : list inline_fun :=
  [ Inline (Fun StaticInline Tu32 "sde_hdmi_get_num_of_displays" [])
      sde_hdmi_get_num_of_displays;
    Inline (Fun StaticInline Tint "sde_hdmi_get_displays"
              [ Field (Tptr (Tptr Tvoid)) "display_array";
                Field Tu32 "max_display_count" ])
      sde_hdmi_get_displays;
    Inline (Fun StaticInline Tint "sde_hdmi_connector_pre_deinit"
              [ Field (Tptr (Tstruct S_drm_connector)) "connector";
                Field (Tptr Tvoid) "display" ])
      sde_hdmi_connector_pre_deinit;
    Inline (Fun StaticInline Tint "sde_hdmi_connector_post_init"
              [ Field (Tptr (Tstruct S_drm_connector)) "connector";
                Field (Tptr Tvoid) "info";
                Field (Tptr Tvoid) "display" ])
      sde_hdmi_connector_post_init;
    Inline (Fun StaticInline (Tenum E_drm_connector_status)
              "sde_hdmi_connector_detect"
              [ Field (Tptr (Tstruct S_drm_connector)) "connector";
                Field Tbool "force";
                Field (Tptr Tvoid) "display" ])
      sde_hdmi_connector_detect;
    Inline (Fun StaticInline Tint "sde_hdmi_connector_get_modes"
              [ Field (Tptr (Tstruct S_drm_connector)) "connector";
                Field (Tptr Tvoid) "display" ])
      sde_hdmi_connector_get_modes;
    Inline (Fun StaticInline (Tenum E_drm_mode_status) "sde_hdmi_mode_valid"
              [ Field (Tptr (Tstruct S_drm_connector)) "connector";
                Field (Tptr (Tstruct S_drm_display_mode)) "mode";
                Field (Tptr Tvoid) "display" ])
      sde_hdmi_mode_valid;
    Inline (Fun StaticInline Tint "sde_hdmi_dev_init"
              [ Field (Tptr (Tstruct S_sde_hdmi)) "display" ])
      sde_hdmi_dev_init;
    Inline (Fun StaticInline Tint "sde_hdmi_dev_deinit"
              [ Field (Tptr (Tstruct S_sde_hdmi)) "display" ])
      sde_hdmi_dev_deinit;
    Inline (Fun StaticInline Tint "sde_hdmi_drm_init"
              [ Field (Tptr (Tstruct S_sde_hdmi)) "display";
                Field (Tptr (Tstruct S_drm_encoder)) "enc" ])
      sde_hdmi_drm_init;
    Inline (Fun StaticInline Tint "sde_hdmi_drm_deinit"
              [ Field (Tptr (Tstruct S_sde_hdmi)) "display" ])
      sde_hdmi_drm_deinit;
    Inline (Fun StaticInline Tint "sde_hdmi_get_info"
              [ Field (Tptr (Tstruct S_msm_display_info)) "info";
                Field (Tptr Tvoid) "display" ])
      sde_hdmi_get_info ].

(** The declarations of the [#else] branch. *)
Definition disabled_decls : list fun_decl := map i_decl stubs.

(** A call: the function applied to one argument per parameter. *)
Fixpoint call (ps : list field) (r : ctype)
  : denote_fun ps r -> denote_fields ps -> M (denote r) :=
  match ps with
  | [] => fun f _ => f
  | p :: ps => fun f a => call ps r (f (fst a)) (snd a)
  end.

Definition call_inline (s : inline_fun)
  : denote_fields (d_params (i_decl s)) -> M (denote (d_ret (i_decl s))) :=
  call (d_params (i_decl s)) (d_ret (i_decl s)) (i_body s).

(** The value of an [int] result; [None] for any other return type. *)
Definition int_value (t : ctype) : denote t -> option Z :=
  match t with
  | Tint => fun z => Some z
  | _ => fun _ => None
  end.

(** ** Results of the inline functions *)

Lemma result_ret (A : Type) (a : A) (h : heap) : result (ret a) h = a.
Proof. reflexivity. Qed.

Lemma final_ret (A : Type) (a : A) (h : heap) : final (ret a) h = h.
Proof. reflexivity. Qed.

(** Writing is visible in this model: after [store p o] the memory holds
    [o] at [p], whatever it held before. *)
Lemma final_store (p : ptr) (o : object) (h : heap) :
  final (store p o) h !! p = Some o.
Proof. unfold final, store; simpl. apply lookup_insert_eq. Qed.

(** C1: with the feature compiled out, [sde_hdmi_connector_detect]
    returns [connector_status_disconnected] for every connector, every
    [force] (true included), every display handle and every memory (so
    also one in which the display is marked connected). *)
Theorem connector_detect_returns_disconnected :
  forall (connector : ptr) (force : bool) (display : ptr) (h : heap),
    result (sde_hdmi_connector_detect connector force display) h
    = connector_status_disconnected.
Proof.
  intros connector force display h.
  unfold sde_hdmi_connector_detect. apply result_ret.
Qed.

(** C2: with the feature compiled out, [sde_hdmi_mode_valid] returns
    [MODE_OK] for every connector, every mode and every display handle. *)
Theorem mode_valid_returns_MODE_OK :
  forall (connector mode display : ptr) (h : heap),
    result (sde_hdmi_mode_valid connector mode display) h = MODE_OK.
Proof.
  intros connector mode display h.
  unfold sde_hdmi_mode_valid. apply result_ret.
Qed.

(** The names of the inline functions whose return type is [int]. *)
Definition int_stub_names : list string :=
  map (fun s => d_name (i_decl s))
      (filter (fun s => ctype_beq (d_ret (i_decl s)) Tint) stubs).

(** C3: with the feature compiled out, each of the nine [int] functions
    returns 0 on every input; they are all the [int] functions of the
    branch, so none of them ever reports an error code. *)
Theorem int_stubs_return_zero :
  (forall display_array max_display_count h,
      result (sde_hdmi_get_displays display_array max_display_count) h = 0)
  /\ (forall connector display h,
      result (sde_hdmi_connector_pre_deinit connector display) h = 0)
  /\ (forall connector info display h,
      result (sde_hdmi_connector_post_init connector info display) h = 0)
  /\ (forall connector display h,
      result (sde_hdmi_connector_get_modes connector display) h = 0)
  /\ (forall display h, result (sde_hdmi_dev_init display) h = 0)
  /\ (forall display h, result (sde_hdmi_dev_deinit display) h = 0)
  /\ (forall display enc h, result (sde_hdmi_drm_init display enc) h = 0)
  /\ (forall display h, result (sde_hdmi_drm_deinit display) h = 0)
  /\ (forall info display h, result (sde_hdmi_get_info info display) h = 0)
  /\ int_stub_names =
     [ "sde_hdmi_get_displays"; "sde_hdmi_connector_pre_deinit";
       "sde_hdmi_connector_post_init"; "sde_hdmi_connector_get_modes";
       "sde_hdmi_dev_init"; "sde_hdmi_dev_deinit"; "sde_hdmi_drm_init";
       "sde_hdmi_drm_deinit"; "sde_hdmi_get_info" ]
  /\ Forall (fun s =>
        d_ret (i_decl s) = Tint ->
        forall a h,
          int_value (d_ret (i_decl s)) (result (call_inline s a) h) = Some 0)
      stubs.
Proof.
  repeat match goal with |- _ /\ _ => split end;
    try (intros; apply result_ret).
  - reflexivity.
  - repeat constructor; simpl; intros Hret a h;
      first [ discriminate Hret | reflexivity ].
Qed.

(** ** The two branches declare the same interface *)

(** [s] is a [static inline] definition with the signature of [p]. *)
Definition stub_of (p : fun_decl) (s : inline_fun) : Prop :=
  d_linkage (i_decl s) = StaticInline
  /\ d_name (i_decl s) = d_name p
  /\ param_types (i_decl s) = param_types p
  /\ d_ret (i_decl s) = d_ret p.

Ltac find_stub :=
  repeat first
    [ apply Exists_cons_hd; solve [ repeat split; reflexivity ]
    | apply Exists_cons_tl ].

Lemma prototypes_covered :
  Forall (fun p => Exists (stub_of p) stubs) enabled_decls.
Proof. repeat (constructor; [ find_stub | ]). constructor. Qed.

(** C4: the enabled branch declares twelve prototypes, the first being
    [sde_hdmi_get_num_of_displays] and the last [sde_hdmi_get_info], and
    for each of them the compiled-out branch defines a [static inline]
    function of the same name, parameter types and return type. *)
Theorem every_prototype_has_a_stub :
  length enabled_decls = 12%nat
  /\ hd_error (map d_name enabled_decls) = Some "sde_hdmi_get_num_of_displays"
  /\ last (map d_name enabled_decls) = Some "sde_hdmi_get_info"
  /\ Forall (fun p => d_linkage p = Prototype) enabled_decls
  /\ List.NoDup (map d_name enabled_decls)
  /\ (forall p, In p enabled_decls ->
        exists s, In s stubs /\ stub_of p s).
Proof.
  split; [ reflexivity | ].
  split; [ reflexivity | ].
  split; [ reflexivity | ].
  split; [ repeat constructor | ].
  split.
  - repeat (constructor; [ simpl; intuition discriminate | ]).
    constructor.
  - intros p Hp.
    apply List.Exists_exists.
    exact (proj1 (List.Forall_forall _ _) prototypes_covered p Hp).
Qed.

(** ** The inline functions and memory *)

(** C5: with the feature compiled out, a call of any inline function
    ends in the memory it started in.  In particular what
    [display_array] and [info] point to is not written, and a display
    object found at any address before a call is found there, with all
    its members, after it. *)
Theorem stubs_leave_memory_unchanged :
  Forall (fun s => forall a h, final (call_inline s a) h = h) stubs
  /\ (forall display_array max_display_count h,
        final (sde_hdmi_get_displays display_array max_display_count) h
          !! display_array
        = h !! display_array)
  /\ (forall info display h,
        final (sde_hdmi_get_info info display) h !! info = h !! info)
  /\ (forall s, In s stubs ->
        forall a h p, display_at (final (call_inline s a) h) p = display_at h p).
Proof.
  assert (Hall : Forall (fun s => forall a h, final (call_inline s a) h = h)
                        stubs).
  { repeat constructor; intros a h; reflexivity. }
  split; [ exact Hall | ].
  split; [ intros; reflexivity | ].
  split; [ intros; reflexivity | ].
  intros s Hs a h p.
  rewrite (proj1 (List.Forall_forall _ _) Hall s Hs).
  reflexivity.
Qed.

(** C6: with the feature compiled out, the result of an inline function
    does not depend on its arguments nor on memory: two calls of the same
    function return equal values. *)
Theorem stub_results_independent_of_inputs :
  Forall (fun s =>
            forall a1 a2 h1 h2,
              result (call_inline s a1) h1 = result (call_inline s a2) h2)
         stubs
  /\ (forall connector1 connector2 force1 force2 display1 display2 h1 h2,
        result (sde_hdmi_connector_detect connector1 force1 display1) h1
        = result (sde_hdmi_connector_detect connector2 force2 display2) h2).
Proof.
  split.
  - repeat constructor; intros a1 a2 h1 h2; reflexivity.
  - intros. reflexivity.
Qed.

(** ** The structures *)

Lemma sde_hdmi_info_members_inv (i : sde_hdmi_info) :
  sde_hdmi_info_of_members (sde_hdmi_info_members i) = i.
Proof. destruct i; reflexivity. Qed.

Lemma sde_hdmi_info_of_members_inv
    (m : denote_fields (s_fields sde_hdmi_info_decl)) :
  sde_hdmi_info_members (sde_hdmi_info_of_members m) = m.
Proof. destruct m as (a & b & c & d & e & f & []); reflexivity. Qed.

Lemma sde_hdmi_ctrl_members_inv (c : sde_hdmi_ctrl) :
  sde_hdmi_ctrl_of_members (sde_hdmi_ctrl_members c) = c.
Proof. destruct c; reflexivity. Qed.

Lemma sde_hdmi_ctrl_of_members_inv
    (m : denote_fields (s_fields sde_hdmi_ctrl_decl)) :
  sde_hdmi_ctrl_members (sde_hdmi_ctrl_of_members m) = m.
Proof. destruct m as (a & b & c & []); reflexivity. Qed.

(** C7: [struct sde_hdmi_info] has exactly six members: the string
    [display_type], the booleans [is_hot_pluggable], [is_connected] and
    [is_edid_supported], and the [u32]s [width_mm] and [height_mm]; a
    value of the structure is one value for each of them. *)
Theorem sde_hdmi_info_has_exactly_six_members :
  field_names sde_hdmi_info_decl =
    [ "display_type"; "is_hot_pluggable"; "is_connected";
      "is_edid_supported"; "width_mm"; "height_mm" ]
  /\ field_type sde_hdmi_info_decl "display_type" = Some Tstring
  /\ field_type sde_hdmi_info_decl "is_hot_pluggable" = Some Tbool
  /\ field_type sde_hdmi_info_decl "is_connected" = Some Tbool
  /\ field_type sde_hdmi_info_decl "is_edid_supported" = Some Tbool
  /\ field_type sde_hdmi_info_decl "width_mm" = Some Tu32
  /\ field_type sde_hdmi_info_decl "height_mm" = Some Tu32
  /\ (forall i, sde_hdmi_info_of_members (sde_hdmi_info_members i) = i)
  /\ (forall m, sde_hdmi_info_members (sde_hdmi_info_of_members m) = m).
Proof.
  repeat match goal with |- _ /\ _ => split end; try reflexivity.
  - exact sde_hdmi_info_members_inv.
  - exact sde_hdmi_info_of_members_inv.
Qed.

(** C8: [struct sde_hdmi_ctrl] has exactly three members: the controller
    handle [ctrl], the device-tree node [ctrl_of_node] and the [u32]
    instance id [hdmi_ctrl_idx]; and [struct sde_hdmi] has exactly one
    member of type [struct sde_hdmi_ctrl], embedded by value and named
    [ctrl]. *)
Theorem sde_hdmi_embeds_one_ctrl_binding :
  field_names sde_hdmi_ctrl_decl = [ "ctrl"; "ctrl_of_node"; "hdmi_ctrl_idx" ]
  /\ field_type sde_hdmi_ctrl_decl "ctrl" = Some (Tptr (Tstruct S_hdmi))
  /\ field_type sde_hdmi_ctrl_decl "ctrl_of_node"
     = Some (Tptr (Tstruct S_device_node))
  /\ field_type sde_hdmi_ctrl_decl "hdmi_ctrl_idx" = Some Tu32
  /\ (forall c, sde_hdmi_ctrl_of_members (sde_hdmi_ctrl_members c) = c)
  /\ (forall m, sde_hdmi_ctrl_members (sde_hdmi_ctrl_of_members m) = m)
  /\ fields_of_type sde_hdmi_decl (Tstruct S_sde_hdmi_ctrl) = [ "ctrl" ]
  /\ fields_of_type sde_hdmi_decl (Tptr (Tstruct S_sde_hdmi_ctrl)) = []
  /\ field_type sde_hdmi_decl "ctrl" = Some (Tstruct S_sde_hdmi_ctrl)
  /\ (forall d : sde_hdmi,
        fst (snd (snd (snd (snd (snd (snd (sde_hdmi_members d)))))))
        = SdeHdmi.ctrl d).
Proof.
  repeat match goal with |- _ /\ _ => split end; try reflexivity.
  - exact sde_hdmi_ctrl_members_inv.
  - exact sde_hdmi_ctrl_of_members_inv.
Qed.

(** ** The display count *)

(** C9: with the feature compiled out, [sde_hdmi_get_displays] returns,
    for every array and every maximum, the number that
    [sde_hdmi_get_num_of_displays] returns; both are 0. *)
Theorem get_displays_agrees_with_num_of_displays :
  forall (display_array : ptr) (max_display_count : u32) (h h' : heap),
    result (sde_hdmi_get_displays display_array max_display_count) h
    = result sde_hdmi_get_num_of_displays h'
    /\ result sde_hdmi_get_num_of_displays h' = 0.
Proof.
  intros display_array max_display_count h h'.
  unfold sde_hdmi_get_displays, sde_hdmi_get_num_of_displays.
  rewrite !result_ret. split; reflexivity.
Qed.

(** C10: with the feature compiled out, the value [sde_hdmi_get_displays]
    returns is not negative and does not exceed [max_display_count], for
    every [u32] maximum, 0 included. *)
Theorem get_displays_within_max_display_count :
  forall (display_array : ptr) (max_display_count : u32) (h : heap),
    u32_range max_display_count ->
    0 <= result (sde_hdmi_get_displays display_array max_display_count) h
      <= max_display_count.
Proof.
  intros display_array max_display_count h [Hlo _].
  unfold sde_hdmi_get_displays. rewrite result_ret. lia.
Qed.

End Header.

(** ** Calls on concrete inputs *)

(** An instance of the kernel's declarations to run the functions on.
    An enumeration is an integer, as in C; the two enumerators get the
    values Linux gives them ([connector_status_disconnected] is 2,
    [MODE_OK] is 0).  A structure of another header is its bytes.  No
    theorem above depends on these choices. *)
Definition sample_decls : KernelDecls := {|
  extern_struct := fun _ => list Z;
  drm_connector_status := Z;
  connector_status_disconnected := 2;
  drm_mode_status := Z;
  MODE_OK := 0
|}.

(** A display that is plugged in, with one mode. *)
Definition sample_display : @sde_hdmi sample_decls :=
  @SdeHdmi.Build_sde_hdmi sample_decls
    0x1000 (* pdev *)
    0x2000 (* drm_dev *)
    0x3000 (* name *)
    0x3010 (* display_type *)
    [] (* list *)
    [] (* display_lock *)
    {| SdeHdmiCtrl.ctrl := 0x4000;
       SdeHdmiCtrl.ctrl_of_node := 0x5000;
       SdeHdmiCtrl.hdmi_ctrl_idx := 0 |}
    false (* non_pluggable *)
    1 (* num_of_modes *)
    [] (* mode_list *)
    true (* connected *)
    false (* is_tpg_enabled *)
    [] (* hpd_work *)
    0 (* root *).

(** A memory holding that display, its two strings and an array of two
    slots for [sde_hdmi_get_displays]. *)
Definition sample_heap : @heap sample_decls :=
  <[ 0x3000 := OString "sde_hdmi" ]>
  (<[ 0x3010 := OString "primary" ]>
  (<[ 0x6000 := OStruct S_sde_hdmi sample_display ]>
  (<[ 0x7000 := OPtrArray [0; 0] ]> ∅))).

Example detect_on_a_connected_display :
  display_at sample_heap 0x6000 = Some sample_display
  /\ SdeHdmi.connected sample_display = true
  /\ sde_hdmi_connector_detect 0 true 0x6000 sample_heap = (2, sample_heap).
Proof. repeat split. Qed.

Example get_displays_on_an_array :
  sde_hdmi_get_displays 0x7000 2 sample_heap = (0, sample_heap)
  /\ sample_heap !! 0x7000 = Some (OPtrArray [0; 0]).
Proof. repeat split. Qed.

(** The frame property is one of the inline functions, not of the model:
    a function that stores does change memory. *)
Example a_store_changes_memory :
  final (store 0x7000 (OPtrArray [0x6000; 0])) sample_heap <> sample_heap.
Proof.
  intros Heq.
  assert (Hl : final (store 0x7000 (OPtrArray [0x6000; 0])) sample_heap
               !! 0x7000 = sample_heap !! 0x7000) by (rewrite Heq; reflexivity).
  rewrite final_store in Hl. vm_compute in Hl. discriminate Hl.
Qed.

(** Witness of C10 at the smallest maximum, 0, on the sample memory. *)
Lemma get_displays_within_max_display_count_witness :
  u32_range 0
  /\ 0 <= result (sde_hdmi_get_displays 0x7000 0) sample_heap <= 0.
Proof.
  assert (H0 : u32_range 0) by (unfold u32_range; lia).
  split; [ exact H0 | ].
  exact (get_displays_within_max_display_count 0x7000 0 sample_heap H0).
Defined.

(** ** Sequences of calls

    A caller built with the feature compiled out makes the calls of the
    header one after the other, each on the memory the previous one
    left.  What follows is about any such sequence. *)

Section Sequences.

Context `{K : KernelDecls}.

(** One call: an inline function of the header and one argument per
    parameter. *)
Record stub_call : Type := Call {
  c_fun : inline_fun;
  c_args : denote_fields (d_params (i_decl c_fun))
}.

(** A returned value with its C type, so that the results of functions
    of different return types fit in one list. *)
Definition value : Type := { t : ctype & denote t }.

Definition run_call (c : stub_call) : M value :=
  bind (call_inline (c_fun c) (c_args c))
       (fun v => ret (existT (d_ret (i_decl (c_fun c))) v)).

(** The calls in order, threading memory; the results in the same order. *)
Fixpoint run_calls (cs : list stub_call) : M (list value) :=
  match cs with
  | [] => ret []
  | c :: cs =>
      bind (run_call c) (fun r =>
      bind (run_calls cs) (fun rs =>
      ret (r :: rs)))
  end.

(** The header's own functions, as opposed to an arbitrary [inline_fun]. *)
Definition from_header (c : stub_call) : Prop := In (c_fun c) stubs.

(** The [#else] branch with the linkage of the other branch. *)
Definition as_prototype (d : fun_decl) : fun_decl :=
  Fun Prototype (d_ret d) (d_name d) (d_params d).

Lemma stub_pure_const :
  Forall (fun s => exists v, forall a h, call_inline s a h = (v, h)) stubs.
Proof. repeat constructor; eexists; intros a h; reflexivity. Qed.

Lemma run_call_pure_const (c : stub_call) :
  from_header c -> exists r, forall h, run_call c h = (r, h).
Proof.
  intros Hc.
  destruct (proj1 (List.Forall_forall _ _) stub_pure_const _ Hc) as [v Hv].
  exists (existT _ v). intros h.
  unfold run_call, bind. rewrite Hv. reflexivity.
Qed.


Lemma run_calls_pure (cs : list stub_call) (h : heap) :
  Forall from_header cs ->
  run_calls cs h = (map (fun c => result (run_call c) h) cs, h).
Proof.
  induction 1 as [ | c cs Hc _ IH ]; [ reflexivity | ].
  destruct (run_call_pure_const c Hc) as [r Hr].
  simpl. unfold bind at 1. unfold result at 1. rewrite Hr.
  unfold bind at 1. rewrite IH. reflexivity.
Qed.

Lemma run_calls_app_eq (cs1 cs2 : list stub_call) (h : heap) :
  run_calls (cs1 ++ cs2)%list h =
  let '(r1, h1) := run_calls cs1 h in
  let '(r2, h2) := run_calls cs2 h1 in
  ((r1 ++ r2)%list, h2).
Proof.
  revert h. induction cs1 as [ | c cs1 IH ]; intros h; simpl.
  - destruct (run_calls cs2 h); reflexivity.
  - unfold bind. destruct (run_call c h) as [r h1].
    rewrite IH. destruct (run_calls cs1 h1) as [r1 h2].
    unfold ret; simpl.
    destruct (run_calls cs2 h2) as [r2 h3]. reflexivity.
Qed.

(** X1: any sequence of calls of the header's inline functions ends in
    the memory it started in, and every call in it returns what it
    returns when made alone on that memory: no call is affected by the
    calls before it. *)
Theorem call_sequence_is_a_no_op :
  forall (cs : list stub_call) (h : heap),
    Forall from_header cs ->
    final (run_calls cs) h = h
    /\ result (run_calls cs) h = map (fun c => result (run_call c) h) cs.
Proof.
  intros cs h Hcs. unfold final, result.
  rewrite (run_calls_pure cs h Hcs). split; reflexivity.
Qed.


(** X3: a sequence made in two parts gives the results of the first part
    followed by those of the second, the second part computed on the
    memory the sequence started in. *)
Theorem call_sequences_concatenate :
  forall (cs1 cs2 : list stub_call) (h : heap),
    Forall from_header cs1 ->
    run_calls (cs1 ++ cs2)%list h
    = ((result (run_calls cs1) h ++ result (run_calls cs2) h)%list,
       final (run_calls cs2) h).
Proof.
  intros cs1 cs2 h H1.
  unfold result, final.
  rewrite run_calls_app_eq, (run_calls_pure cs1 h H1). simpl.
  destruct (run_calls cs2 h) as [r2 h2]. reflexivity.
Qed.

Ltac find_prototype :=
  repeat first
    [ apply Exists_cons_hd; solve [ repeat split; reflexivity ]
    | apply Exists_cons_tl ].

Lemma stubs_declared :
  Forall (fun s => Exists (fun p => stub_of p s) enabled_decls) stubs.
Proof. repeat (constructor; [ find_prototype | ]). constructor. Qed.

(** X4: the two branches of the [#ifdef] declare the same interface in
    both directions: the compiled-out branch, read with the linkage of
    a prototype, is the enabled branch itself, entry by entry, in the
    same order and with the same parameter names; so every inline
    function has a prototype and the branch defines nothing more. *)
Theorem branches_declare_the_same_interface :
  map as_prototype disabled_decls = enabled_decls
  /\ Forall (fun d => d_linkage d = StaticInline) disabled_decls
  /\ length stubs = length enabled_decls
  /\ (forall s, In s stubs -> exists p, In p enabled_decls /\ stub_of p s).
Proof.
  split; [ reflexivity | ].
  split; [ repeat constructor | ].
  split; [ reflexivity | ].
  intros s Hs.
  apply List.Exists_exists.
  exact (proj1 (List.Forall_forall _ _) stubs_declared s Hs).
Qed.

End Sequences.

(** ** Sequences on concrete inputs *)

(** Hot-plug detection forced on the connected display, a query for two
    displays, and the initialisation of the display. *)
Definition sample_calls : list (@stub_call sample_decls) :=
  [ Call (Inline (Fun StaticInline (Tenum E_drm_connector_status)
                    "sde_hdmi_connector_detect"
                    [ Field (Tptr (Tstruct S_drm_connector)) "connector";
                      Field Tbool "force";
                      Field (Tptr Tvoid) "display" ])
            sde_hdmi_connector_detect)
         (0, (true, (0x6000, tt)));
    Call (Inline (Fun StaticInline Tint "sde_hdmi_get_displays"
                    [ Field (Tptr (Tptr Tvoid)) "display_array";
                      Field Tu32 "max_display_count" ])
            sde_hdmi_get_displays)
         (0x7000, (2, tt));
    Call (Inline (Fun StaticInline Tint "sde_hdmi_dev_init"
                    [ Field (Tptr (Tstruct S_sde_hdmi)) "display" ])
            sde_hdmi_dev_init)
         (0x6000, tt) ].

(** A function that is not of the header and does write: it fills the
    first slot of a display array. *)
Definition sample_writer : list (@stub_call sample_decls) :=
  [ Call (Inline (Fun StaticInline Tvoid "fill_first_slot"
                    [ Field (Tptr (Tptr Tvoid)) "display_array" ])
            (fun display_array =>
               store display_array (OPtrArray [0x6000; 0])))
         (0x7000, tt) ].

Lemma sample_calls_from_header : Forall from_header sample_calls.
Proof.
  repeat (apply List.Forall_cons; [ unfold from_header; simpl; auto 20 | ]).
  apply List.Forall_nil.
Qed.

Example sample_calls_results :
  result (run_calls sample_calls) sample_heap
  = [ existT (Tenum E_drm_connector_status) 2;
      existT Tint 0;
      existT Tint 0 ].
Proof. reflexivity. Qed.

(** Witness of X1 on the sample calls and memory. *)
Lemma call_sequence_is_a_no_op_witness :
  Forall from_header sample_calls
  /\ final (run_calls sample_calls) sample_heap = sample_heap
  /\ result (run_calls sample_calls) sample_heap
     = map (fun c => result (run_call c) sample_heap) sample_calls.
Proof.
  split; [ exact sample_calls_from_header | ].
  exact (call_sequence_is_a_no_op sample_calls sample_heap
           sample_calls_from_header).
Defined.


(** Witness of X3: the sample calls followed by the writer. *)
Lemma call_sequences_concatenate_witness :
  Forall from_header sample_calls
  /\ run_calls (sample_calls ++ sample_writer)%list sample_heap
     = ((result (run_calls sample_calls) sample_heap
         ++ result (run_calls sample_writer) sample_heap)%list,
        final (run_calls sample_writer) sample_heap).
Proof.
  split; [ exact sample_calls_from_header | ].
  exact (call_sequences_concatenate sample_calls sample_writer sample_heap
           sample_calls_from_header).
Defined.
